(** * ew-nomoreleakskey: the EdgeWorker that turns a username/password pair
      into the No More Leaks lookup key

    A shallow embedding of [src/main.ts]: [responseProvider] and
    [generateDigest], together with the pieces of the JavaScript runtime
    they call ([parseInt], truthiness, [Number.prototype.toString],
    [String.prototype.padStart], [Array.prototype.join],
    [TextEncoder.encode], [JSON.stringify]).

    Strings are JavaScript strings: sequences of UTF-16 code units.  Bytes
    are [Byte.byte].  The handler's effects (reading the body, calling the
    digest provider, logging) are recorded in an explicit trace, and an
    uncaught exception is an outcome of its own. *)

From Stdlib Require Import Strings.String Strings.Ascii Strings.Byte.
From Stdlib Require Import ZArith NArith Bool Lia Floats List.
Import ListNotations.

Set Implicit Arguments.
Set Warnings "-register-all".

(* ================================================================== *)
(** * The JavaScript runtime, as far as the handler uses it *)
(* ================================================================== *)

Module JS.

(** A UTF-16 code unit, and a JavaScript string. *)
Definition code_unit := N.
Definition jsstring := list code_unit.

(** An ASCII literal of the source as a JavaScript string. *)
Definition lit (s : string) : jsstring :=
  map N_of_ascii (list_ascii_of_string s).

(** The double-quote character, U+0022. *)
Definition dquote : code_unit := 34%N.

Fixpoint jsstring_eqb (a b : jsstring) : bool :=
  match a, b with
  | [], [] => true
  | x :: a', y :: b' => (x =? y)%N && jsstring_eqb a' b'
  | _, _ => false
  end.

(** ** parseInt *)

(** [StrWhiteSpaceChar]: WhiteSpace and LineTerminator of ECMA-262. *)
Definition is_whitespace (c : code_unit) : bool :=
  ((9 <=? c) && (c <=? 13) || (c =? 32) || (c =? 160) || (c =? 5760)
   || (8192 <=? c) && (c <=? 8202) || (c =? 8232) || (c =? 8233)
   || (c =? 8239) || (c =? 8287) || (c =? 12288) || (c =? 65279))%N.

Fixpoint trim_start (s : jsstring) : jsstring :=
  match s with
  | c :: r => if is_whitespace c then trim_start r else s
  | [] => []
  end.

(** The value of a digit character: 0-9, then a-z or A-Z for 10-35. *)
Definition digit_value (c : code_unit) : option Z :=
  if ((48 <=? c) && (c <=? 57))%N then Some (Z.of_N (c - 48))
  else if ((97 <=? c) && (c <=? 122))%N then Some (Z.of_N (c - 87))
  else if ((65 <=? c) && (c <=? 90))%N then Some (Z.of_N (c - 55))
  else None.

(** The longest prefix of [s] made of digits of radix [R], as values. *)
Fixpoint radix_digits (R : Z) (s : jsstring) : list Z :=
  match s with
  | c :: r =>
      match digit_value c with
      | Some d => if (d <? R)%Z then d :: radix_digits R r else []
      | None => []
      end
  | [] => []
  end.

Definition digits_value (R : Z) (ds : list Z) : Z :=
  fold_left (fun acc d => (acc * R + d)%Z) ds 0%Z.

Definition strip_sign (s : jsstring) : bool * jsstring :=
  match s with
  | 45%N :: r => (true, r)
  | 43%N :: r => (false, r)
  | _ => (false, s)
  end.

Definition strip_hex_prefix (s : jsstring) : option jsstring :=
  match s with
  | 48%N :: 120%N :: r => Some r
  | 48%N :: 88%N :: r => Some r
  | _ => None
  end.

(** [parseInt(input, radix)].  [input = None] is [undefined], which
    [ToString] turns into the text [undefined].  [None] as a result is
    [NaN].  The result is kept as the exact integer the digits denote; the
    engine rounds it to a binary64 Number, which is exact below 2^53 and
    monotone, so a comparison with 16384 has the same outcome. *)
Definition parseInt (input : option jsstring) (radix : Z) : option Z :=
  let inputString :=
    match input with Some s => s | None => lit "undefined" end in
  let '(negative, rest) := strip_sign (trim_start inputString) in
  let in_range := ((2 <=? radix) && (radix <=? 36))%Z in
  if negb (radix =? 0)%Z && negb in_range then None
  else
    let stripPrefix := (radix =? 0)%Z || (radix =? 16)%Z in
    let R0 := if (radix =? 0)%Z then 10%Z else radix in
    let '(R, rest) :=
      match (if stripPrefix then strip_hex_prefix rest else None) with
      | Some rest' => (16%Z, rest')
      | None => (R0, rest)
      end in
    match radix_digits R rest with
    | [] => None
    | ds => let v := digits_value R ds in
            Some (if negative then (- v)%Z else v)
    end.

(** [a < b] on Numbers, where [a] may be [NaN]: every comparison with
    [NaN] is false. *)
Definition number_lt (a : option Z) (b : Z) : bool :=
  match a with
  | Some z => (z <? b)%Z
  | None => false
  end.

(** ** Number.prototype.toString, padStart, join *)

Definition digit_char (d : N) : code_unit :=
  (if d <? 10 then 48 + d else 87 + d)%N.

(** The digits of [n] in radix [radix], most significant first, before
    [acc]; [fuel] bounds the number of digits. *)
Fixpoint to_digits (fuel : nat) (radix n : N) (acc : jsstring) : jsstring :=
  match fuel with
  | O => acc
  | S fuel' =>
      let acc' := digit_char (n mod radix) :: acc in
      if (n / radix =? 0)%N then acc'
      else to_digits fuel' radix (n / radix) acc'
  end.

(** [n.toString(radix)] for a non-negative integer [n] and a radix
    between 2 and 36.  A number of [k] bits has at most [k] digits. *)
Definition Number_toString (n radix : N) : jsstring :=
  to_digits (S (N.size_nat n)) radix n [].

(** [fill k pad cur]: the first [k] code units of [cur] followed by
    endless copies of [pad]. *)
Fixpoint fill (k : nat) (pad cur : jsstring) : jsstring :=
  match k with
  | O => []
  | S k' =>
      match cur with
      | c :: r => c :: fill k' pad r
      | [] =>
          match pad with
          | c :: r => c :: fill k' pad r
          | [] => []
          end
      end
  end.

(** [s.padStart(targetLength, padString)]. *)
Definition padStart (s : jsstring) (targetLength : nat) (padString : jsstring)
  : jsstring :=
  if (targetLength <=? length s)%nat then s
  else fill (targetLength - length s) padString [] ++ s.

(** [parts.join(separator)]. *)
Fixpoint join (separator : jsstring) (parts : list jsstring) : jsstring :=
  match parts with
  | [] => []
  | [p] => p
  | p :: rest => p ++ separator ++ join separator rest
  end.

(** ** TextEncoder: UTF-8 *)

Definition is_high_surrogate (c : code_unit) : bool :=
  ((55296 <=? c) && (c <=? 56319))%N.
Definition is_low_surrogate (c : code_unit) : bool :=
  ((56320 <=? c) && (c <=? 57343))%N.
Definition is_surrogate (c : code_unit) : bool :=
  ((55296 <=? c) && (c <=? 57343))%N.

(** The code points of a string: a high surrogate followed by a low one is
    one code point, every other code unit stands for itself. *)
Fixpoint code_points (s : jsstring) : list N :=
  match s with
  | [] => []
  | c :: r =>
      if is_high_surrogate c then
        match r with
        | d :: r' =>
            if is_low_surrogate d
            then (65536 + (c - 55296) * 1024 + (d - 56320))%N :: code_points r'
            else c :: code_points r
        | [] => [c]
        end
      else c :: code_points r
  end.

Definition byte_of_N (n : N) : byte :=
  match Byte.of_N (n mod 256) with
  | Some b => b
  | None => x00
  end.

(** UTF-8 of one code point; a lone surrogate is encoded as U+FFFD. *)
Definition utf8_of_code_point (cp : N) : list byte :=
  let cp := if is_surrogate cp then 65533%N else cp in
  if (cp <? 128)%N then [byte_of_N cp]
  else if (cp <? 2048)%N then
    [byte_of_N (192 + cp / 64); byte_of_N (128 + cp mod 64)]
  else if (cp <? 65536)%N then
    [byte_of_N (224 + cp / 4096); byte_of_N (128 + (cp / 64) mod 64);
     byte_of_N (128 + cp mod 64)]
  else
    [byte_of_N (240 + cp / 262144); byte_of_N (128 + (cp / 4096) mod 64);
     byte_of_N (128 + (cp / 64) mod 64); byte_of_N (128 + cp mod 64)].

(** [new TextEncoder().encode(s)]. *)
Definition TextEncoder_encode (s : jsstring) : list byte :=
  flat_map utf8_of_code_point (code_points s).

(** ** JSON.stringify of an object of string properties *)

Definition hex4 (c : N) : jsstring :=
  [digit_char (c / 4096); digit_char ((c / 256) mod 16);
   digit_char ((c / 16) mod 16); digit_char (c mod 16)].

(** The escape of one code unit inside a JSON string, where [lone] says
    that it is a surrogate without its partner. *)
Definition json_escape (lone : bool) (c : code_unit) : jsstring :=
  if (c =? 8)%N then lit "\b"
  else if (c =? 9)%N then lit "\t"
  else if (c =? 10)%N then lit "\n"
  else if (c =? 12)%N then lit "\f"
  else if (c =? 13)%N then lit "\r"
  else if (c =? 34)%N then [92%N; dquote]
  else if (c =? 92)%N then [92%N; 92%N]
  else if (c <? 32)%N || lone then lit "\u" ++ hex4 c
  else [c].

Fixpoint json_escape_all (s : jsstring) : jsstring :=
  match s with
  | [] => []
  | c :: r =>
      if is_high_surrogate c then
        match r with
        | d :: r' =>
            if is_low_surrogate d then c :: d :: json_escape_all r'
            else json_escape true c ++ json_escape_all r
        | [] => json_escape true c
        end
      else json_escape (is_low_surrogate c) c ++ json_escape_all r
  end.

(** [QuoteJSONString]. *)
Definition json_quote (s : jsstring) : jsstring :=
  dquote :: json_escape_all s ++ [dquote].

(** [JSON.stringify(o)] for an object [o] whose own properties, in order,
    are [props], all with string values. *)
Definition JSON_stringify (props : list (jsstring * jsstring)) : jsstring :=
  lit "{"
  ++ join (lit ",")
       (map (fun kv => json_quote (fst kv) ++ lit ":" ++ json_quote (snd kv))
            props)
  ++ lit "}".

(** ** Values that [JSON.parse] produces *)

Inductive JSValue : Type :=
| JNull
| JBool (b : bool)
| JNum (x : float)
| JStr (s : jsstring)
| JArr (items : list JSValue)
| JObj (props : list (jsstring * JSValue)).

Fixpoint assoc (k : jsstring) (props : list (jsstring * JSValue))
  : option JSValue :=
  match props with
  | [] => None
  | (k', v) :: rest => if jsstring_eqb k k' then Some v else assoc k rest
  end.

(** [v[k]] for a key [k] that is neither an array index nor the name of a
    built-in property, as the handler's two field names are: an own
    property of an object, [undefined] ([None]) on anything else.  [v] is
    not [null]. *)
Definition get_prop (v : JSValue) (k : jsstring) : option JSValue :=
  match v with
  | JObj props => assoc k props
  | _ => None
  end.

(** [ToBoolean]; [None] is [undefined]. *)
Definition truthy (v : option JSValue) : bool :=
  match v with
  | None | Some JNull => false
  | Some (JBool b) => b
  | Some (JNum x) => negb (PrimFloat.eqb x 0 || negb (PrimFloat.eqb x x))
  | Some (JStr s) => negb (Nat.eqb (length s) 0)
  | Some (JArr _) | Some (JObj _) => true
  end.

(** The settled state of a promise. *)
Inductive Settled (A : Type) : Type :=
| Resolved (a : A)
| Rejected.
Arguments Rejected {A}.

(** [p.catch(() => null)] for a promise of a JSON value. *)
Definition catch_null (p : Settled JSValue) : JSValue :=
  match p with
  | Resolved v => v
  | Rejected => JNull
  end.

(** The number of characters (code points) of a string, as opposed to
    [length], its number of code units. *)
Definition char_count (s : jsstring) : nat := length (code_points s).

End JS.
Import JS.

(* ================================================================== *)
(** * The handler *)
(* ================================================================== *)

(** ** The platform's interfaces *)

Inductive Algorithm : Type := SHA1 | SHA256 | SHA384 | SHA512.

Inductive NormalizationForm : Type := NFC | NFD | NFKC | NFKD.

(** What the handler takes from the engine and from the EdgeWorkers
    modules without defining it. *)
Class Platform : Type := {
  (** [String.prototype.toLowerCase] *)
  toLowerCase : jsstring -> jsstring;
  (** [String.prototype.normalize] *)
  normalize : NormalizationForm -> jsstring -> jsstring;
  (** what the promise of [crypto.subtle.digest] resolves to *)
  digest : Algorithm -> list byte -> list byte;
  (** [w > 1] for a JSON value [w]; [None] when the conversion of [w] to
      a primitive throws *)
  greater_than_one : JSValue -> option bool
}.

(** What a run of the handler does besides computing its response. *)
Inductive Event : Type :=
| ReadBody                                   (* request.json() *)
| Digest (algorithm : Algorithm) (data : list byte)
                                             (* crypto.subtle.digest *)
| LogInfo (message : jsstring)               (* logger.info *)
| LogError (message : jsstring).             (* logger.error *)

Inductive Exn : Type := TypeError.

Inductive Outcome (A : Type) : Type :=
| Returned (a : A)
| Thrown (e : Exn).
Arguments Thrown {A} e.

(** A computation with a trace of events, ending in a value or in an
    uncaught exception. *)
Definition Eff (A : Type) : Type := (list Event * Outcome A)%type.

Definition ret {A} (a : A) : Eff A := ([], Returned a).
Definition throw {A} (e : Exn) : Eff A := ([], Thrown e).
Definition emit (ev : Event) : Eff unit := ([ev], Returned tt).
Definition bind {A B} (m : Eff A) (k : A -> Eff B) : Eff B :=
  match m with
  | (t, Returned a) => let '(t', o) := k a in (t ++ t', o)
  | (t, Thrown e) => (t, Thrown e)
  end.

Notation "x <- m ;; k" := (bind m (fun x => k))
  (at level 61, m at next level, right associativity).
Notation "m ;; k" := (bind m (fun _ => k))
  (at level 61, right associativity).

Definition trace {A} (m : Eff A) : list Event := fst m.
Definition outcome {A} (m : Eff A) : Outcome A := snd m.

Module EW.

(** The request the platform hands to [responseProvider]: the header
    lookup ([None] when the request has no such header) and what
    [request.json()] settles to. *)
Record ResponseProviderRequest : Type := {
  getHeader : jsstring -> option (list jsstring);
  json : Settled JSValue
}.

End EW.

(** What [createResponse(status, headers, body)] builds. *)
Record Response : Type := createResponse {
  status : Z;
  headers : list (jsstring * list jsstring);
  body : jsstring
}.

(** ** src/main.ts *)

Definition UNAME : jsstring := lit "uname".
Definition PASSWD : jsstring := lit "passwd".

(** [a[0]]: a [TypeError] when [a] is [null] or [undefined], [undefined]
    when the array is empty. *)
Definition first_element (a : option (list jsstring)) : Eff (option jsstring) :=
  match a with
  | Some values => ret (hd_error values)
  | None => throw TypeError
  end.

(** [v.method(...)] for a method of [String.prototype] computing [f]: a
    value that JSON can produce has this method only when it is a
    string. *)
Definition string_method (v : option JSValue) (f : jsstring -> jsstring)
  : Eff jsstring :=
  match v with
  | Some (JStr s) => ret (f s)
  | _ => throw TypeError
  end.

Section Handler.

Context {platform : Platform}.

(** [v.length > 1] for a truthy [v]. *)
Definition length_gt_one (v : option JSValue) : Eff bool :=
  match v with
  | Some (JStr s) => ret (1 <? length s)%nat
  | Some (JArr items) => ret (1 <? length items)%nat
  | Some (JObj props) =>
      match assoc (lit "length") props with
      | Some w =>
          match greater_than_one w with
          | Some b => ret b
          | None => throw TypeError
          end
      | None => ret false
      end
  | _ => ret false
  end.

(** The condition of the inner [if]:
    [myBody && myBody[UNAME] && myBody[PASSWD] && myBody[PASSWD].length > 1]. *)
Definition body_is_valid (myBody : JSValue) : Eff bool :=
  if truthy (Some myBody) then
    if truthy (get_prop myBody UNAME) then
      if truthy (get_prop myBody PASSWD) then
        length_gt_one (get_prop myBody PASSWD)
      else ret false
    else ret false
  else ret false.

(** [await request.json().catch(() => null)] *)
Definition read_body (request : EW.ResponseProviderRequest) : Eff JSValue :=
  emit ReadBody ;; ret (catch_null (EW.json request)).

(** [await crypto.subtle.digest(algorithm, data)] *)
Definition subtle_digest (algorithm : Algorithm) (data : list byte)
  : Eff (list byte) :=
  emit (Digest algorithm data) ;; ret (digest algorithm data).

(** [b.toString(16).padStart(2, "0")] *)
Definition hex_of_byte (b : byte) : jsstring :=
  padStart (Number_toString (Byte.to_N b) 16) 2 (lit "0").

(** [walkable.map((b) => b.toString(16).padStart(2, "0")).join("")] *)
Definition hex_string (walkable : list byte) : jsstring :=
  join (lit "") (map hex_of_byte walkable).

Definition generateDigest (algorithm : Algorithm) (stringToDigest : jsstring)
  : Eff jsstring :=
  let msgUint8 := TextEncoder_encode stringToDigest in
  hashBuffer <- subtle_digest algorithm msgUint8 ;;
  let walkable := hashBuffer in
  ret (hex_string walkable).

Definition responseProvider (request : EW.ResponseProviderRequest)
  : Eff Response :=
  let maxBodyLength := 16384%Z in
  contentLength <- first_element (EW.getHeader request (lit "content-length")) ;;
  if number_lt (parseInt contentLength 10) maxBodyLength then
    myBody <- read_body request ;;
    valid <- body_is_valid myBody ;;
    if (valid : bool) then
      lowered <- string_method (get_prop myBody UNAME) toLowerCase ;;
      passwd <- string_method (get_prop myBody PASSWD) (normalize NFC) ;;
      let normalizedUnamePasswd := normalize NFC lowered ++ passwd in
      hex <- generateDigest SHA256 normalizedUnamePasswd ;;
      emit (LogInfo
              (lit "SHA-256 hash created from username+password combination")) ;;
      ret (createResponse 200
             [(lit "Content-Type", [lit "application/json"])]
             (JSON_stringify [(lit "key", hex)]))
    else
      emit (LogError (lit "Something wrong with the request body")) ;;
      ret (createResponse 500 [] (lit "Something wrong with the provided body"))
  else
    emit (LogError (lit "Body too large")) ;;
    ret (createResponse 500 [] (lit "Body too large")).

End Handler.

(* ================================================================== *)
(** * A reference platform *)
(* ================================================================== *)

(** The handler takes the platform's digest provider, [toLowerCase] and
    [normalize] as given.  The definitions of this part are instances of
    them to run the handler on: SHA-256 as FIPS 180-4 defines it, and the
    two text operations on the Basic Latin and Latin-1 letters. *)

Module Sha256.
Local Open Scope Z_scope.

Definition mask32 : Z := 4294967295.
Definition w32 (x : Z) : Z := Z.land x mask32.
Definition add32 (x y : Z) : Z := w32 (x + y).
Definition rotr (n x : Z) : Z :=
  w32 (Z.lor (Z.shiftr x n) (Z.shiftl x (32 - n))).
Definition shr (n x : Z) : Z := Z.shiftr x n.

Definition Ch (x y z : Z) : Z :=
  Z.lxor (Z.land x y) (Z.land (Z.lxor x mask32) z).
Definition Maj (x y z : Z) : Z :=
  Z.lxor (Z.lxor (Z.land x y) (Z.land x z)) (Z.land y z).
Definition Sigma0 (x : Z) : Z :=
  Z.lxor (Z.lxor (rotr 2 x) (rotr 13 x)) (rotr 22 x).
Definition Sigma1 (x : Z) : Z :=
  Z.lxor (Z.lxor (rotr 6 x) (rotr 11 x)) (rotr 25 x).
Definition sigma0 (x : Z) : Z :=
  Z.lxor (Z.lxor (rotr 7 x) (rotr 18 x)) (shr 3 x).
Definition sigma1 (x : Z) : Z :=
  Z.lxor (Z.lxor (rotr 17 x) (rotr 19 x)) (shr 10 x).

(** The first 64 primes: those up to 311. *)
Definition is_prime (p : Z) : bool :=
  forallb (fun d => negb (p mod d =? 0))
          (map Z.of_nat (seq 2 (Z.to_nat p - 2))).

Definition primes : list Z :=
  Eval vm_compute in filter is_prime (map Z.of_nat (seq 2 310)).

(** The integer cube root of a number below 2^120, bit by bit. *)
Definition cube_root (n : Z) : Z :=
  fold_left (fun r bit => let r' := r + 2 ^ bit in
                          if r' * r' * r' <=? n then r' else r)
            (map Z.of_nat (rev (seq 0 40))) 0.

(** The first 32 bits of the fractional part of the cube root of each
    prime. *)
Definition K : list Z :=
  Eval vm_compute in map (fun p => w32 (cube_root (p * 2 ^ 96))) primes.

(** The eight working variables, and the hash value between blocks. *)
Record state : Type := State {
  sa : Z; sb : Z; sc : Z; sd : Z; se : Z; sf : Z; sg : Z; sh : Z
}.

(** The first 32 bits of the fractional part of the square root of a
    prime. *)
Definition root_bits (p : Z) : Z := w32 (Z.sqrt (p * 2 ^ 64)).

Definition H0 : state :=
  Eval vm_compute in
    State (root_bits 2) (root_bits 3) (root_bits 5) (root_bits 7)
          (root_bits 11) (root_bits 13) (root_bits 17) (root_bits 19).

(** The padded message: a 1 bit, zeros up to 56 mod 64 bytes, and the
    length in bits as 8 bytes, most significant first. *)
Definition be_bytes (count : nat) (x : Z) : list Z :=
  map (fun i => Z.land (Z.shiftr x (8 * Z.of_nat i)) 255) (rev (seq 0 count)).

Definition pad (msg : list Z) : list Z :=
  let len := Z.of_nat (length msg) in
  msg ++ [128] ++ repeat 0 (Z.to_nat ((55 - len) mod 64))
      ++ be_bytes 8 (8 * len).

Fixpoint be_words (count : nat) (bytes : list Z) : list Z :=
  match count, bytes with
  | S count', b0 :: b1 :: b2 :: b3 :: rest =>
      (b0 * 16777216 + b1 * 65536 + b2 * 256 + b3) :: be_words count' rest
  | _, _ => []
  end.

(** The message schedule, most recent word first: [extend k w] adds [k]
    words to the words [w]. *)
Fixpoint extend (k : nat) (w : list Z) : list Z :=
  match k with
  | O => w
  | S k' =>
      let x := add32 (add32 (sigma1 (nth 1 w 0)) (nth 6 w 0))
                     (add32 (sigma0 (nth 14 w 0)) (nth 15 w 0)) in
      extend k' (x :: w)
  end.

Definition schedule (block : list Z) : list Z :=
  rev (extend 48 (rev (be_words 16 block))).

Definition round (s : state) (kw : Z * Z) : state :=
  let '(k, w) := kw in
  let T1 := add32 (add32 (add32 (sh s) (Sigma1 (se s)))
                         (add32 (Ch (se s) (sf s) (sg s)) k)) w in
  let T2 := add32 (Sigma0 (sa s)) (Maj (sa s) (sb s) (sc s)) in
  State (add32 T1 T2) (sa s) (sb s) (sc s) (add32 (sd s) T1)
        (se s) (sf s) (sg s).

Definition compress (h : state) (block : list Z) : state :=
  let s := fold_left round (combine K (schedule block)) h in
  State (add32 (sa h) (sa s)) (add32 (sb h) (sb s)) (add32 (sc h) (sc s))
        (add32 (sd h) (sd s)) (add32 (se h) (se s)) (add32 (sf h) (sf s))
        (add32 (sg h) (sg s)) (add32 (sh h) (sh s)).

Fixpoint blocks (count : nat) (h : state) (bytes : list Z) : state :=
  match count with
  | O => h
  | S count' => blocks count' (compress h (firstn 64 bytes)) (skipn 64 bytes)
  end.

Definition state_bytes (s : state) : list byte :=
  map (fun x => byte_of_N (Z.to_N x))
      (flat_map (be_bytes 4)
         [sa s; sb s; sc s; sd s; se s; sf s; sg s; sh s]).

Definition sha256 (msg : list byte) : list byte :=
  let padded := pad (map (fun b => Z.of_N (Byte.to_N b)) msg) in
  state_bytes (blocks (length padded / 64) H0 padded).

End Sha256.

(** Reference text operations.  They agree with the engine's on strings
    made of Basic Latin characters, of the twenty lower-case vowels of
    Latin-1 that carry a grave, an acute, a circumflex or a diaeresis, and
    of these four combining marks where a mark stands alone directly
    after one of the vowels a, e, i, o, u in either case. *)
Module RefText.

Definition lower_unit (c : code_unit) : code_unit :=
  if ((65 <=? c) && (c <=? 90))%N then (c + 32)%N else c.

Definition toLowerCase (s : jsstring) : jsstring := map lower_unit s.

(** Base letter, combining mark, precomposed letter. *)
Definition compositions : list (code_unit * code_unit * code_unit) :=
  [(97, 768, 224); (97, 769, 225); (97, 770, 226); (97, 776, 228);
   (101, 768, 232); (101, 769, 233); (101, 770, 234); (101, 776, 235);
   (105, 768, 236); (105, 769, 237); (105, 770, 238); (105, 776, 239);
   (111, 768, 242); (111, 769, 243); (111, 770, 244); (111, 776, 246);
   (117, 768, 249); (117, 769, 250); (117, 770, 251); (117, 776, 252)]%N.

Definition compose (base mark : code_unit) : option code_unit :=
  option_map snd
    (find (fun e => (fst (fst e) =? base) && (snd (fst e) =? mark))%N
          compositions).

Definition decompose (c : code_unit) : jsstring :=
  match find (fun e => (snd e =? c)%N) compositions with
  | Some (base, mark, _) => [base; mark]
  | None => [c]
  end.

Definition nfd (s : jsstring) : jsstring := flat_map decompose s.

Fixpoint compose_all (s : jsstring) : jsstring :=
  match s with
  | [] => []
  | b :: r =>
      match r with
      | m :: r' =>
          match compose b m with
          | Some c => c :: compose_all r'
          | None => b :: compose_all r
          end
      | [] => [b]
      end
  end.

Definition nfc (s : jsstring) : jsstring := compose_all (nfd s).

Definition normalize (form : NormalizationForm) (s : jsstring) : jsstring :=
  match form with
  | NFC | NFKC => nfc s
  | NFD | NFKD => nfd s
  end.

(** [w > 1] where converting [w] to a number needs no parsing: [null] is
    0, a boolean is 0 or 1, a number is itself.  A string, an array or an
    object stands for [NaN] here. *)
Definition greater_than_one (w : JSValue) : option bool :=
  match w with
  | JNum x => Some (PrimFloat.ltb 1 x)
  | _ => Some false
  end.

End RefText.

(** The reference platform.  Of the digests only SHA-256, the one the
    handler asks for, is there; the others give no bytes. *)
Definition reference : Platform := {|
  toLowerCase := RefText.toLowerCase;
  normalize := RefText.normalize;
  digest := fun algorithm data =>
    match algorithm with
    | SHA256 => Sha256.sha256 data
    | SHA1 | SHA384 | SHA512 => []
    end;
  greater_than_one := RefText.greater_than_one
|}.

(** Requests to run the handler on: one [content-length] header with the
    given values, and a body. *)
Definition request_of (contentLength : list jsstring) (body : Settled JSValue)
  : EW.ResponseProviderRequest := {|
  EW.getHeader := fun name =>
    if jsstring_eqb name (lit "content-length") then Some contentLength
    else None;
  EW.json := body
|}.

Definition credentials (u p : jsstring) : JSValue :=
  JObj [(UNAME, JStr u); (PASSWD, JStr p)].

(** One character outside the Basic Multilingual Plane, U+1F600: two code
    units, four bytes of UTF-8. *)
Definition grinning_face : jsstring := [55357; 56832]%N.

(** The example of the comment in [responseProvider]: the username
    Normalisation@Test.NL and a password of six letters, three of them
    with an accent (u diaeresis, m, l, a acute, u circumflex, t). *)
Definition documented_uname : jsstring := lit "Normalisation@Test.NL".
Definition documented_passwd : jsstring := [252; 109; 108; 225; 251; 116]%N.
Definition documented_hash : jsstring :=
  lit "35383e4c63b157472d939ca98fac0da3fdc468c7641d7fc70411348b9b6e98a2".

(** Rene with a capital and a combining acute, and rene with the
    precomposed e acute. *)
Definition rene_decomposed : jsstring := lit "Rene" ++ [769%N].
Definition rene_precomposed : jsstring := lit "ren" ++ [233%N].

(** Bodies to run the handler on: an empty username, a password given
    as an array, and credentials beside a field the handler does not
    know. *)
Definition empty_uname_body : JSValue := credentials [] (lit "secret").

Definition array_passwd_body : JSValue :=
  JObj [(UNAME, JStr (lit "alice"));
        (PASSWD, JArr [JStr (lit "s"); JStr (lit "t")])].

Definition body_with_more : JSValue :=
  JObj [(lit "remember", JBool true);
        (UNAME, JStr (lit "alice")); (PASSWD, JStr (lit "secret"))].

(* ================================================================== *)
(** * Vocabulary of the properties *)
(* ================================================================== *)

(** The request has a [content-length] header, and [parseInt] of its
    first value is [n]; [n = None] is [NaN]. *)
Definition content_length_parses (request : EW.ResponseProviderRequest)
  (n : option Z) : Prop :=
  exists values,
    EW.getHeader request (lit "content-length") = Some values
    /\ parseInt (hd_error values) 10 = n.

(** The size gate lets the request through. *)
Definition below_limit (request : EW.ResponseProviderRequest) : Prop :=
  exists n, content_length_parses request (Some n) /\ (n < 16384)%Z.

(** The body of the request is JSON with the string [u] under [uname] and
    the string [p] under [passwd]. *)
Definition carries (request : EW.ResponseProviderRequest) (u p : jsstring)
  : Prop :=
  exists myBody,
    EW.json request = Resolved myBody
    /\ get_prop myBody UNAME = Some (JStr u)
    /\ get_prop myBody PASSWD = Some (JStr p).

(** The three responses of section 4.1 of the specification; the body of
    the third as [JSON.stringify] writes an object, without spaces. *)
Definition body_too_large : Response :=
  createResponse 500 [] (lit "Body too large").

Definition something_wrong : Response :=
  createResponse 500 [] (lit "Something wrong with the provided body").

Definition key_response (hex : jsstring) : Response :=
  createResponse 200 [(lit "Content-Type", [lit "application/json"])]
    (lit "{" ++ [dquote] ++ lit "key" ++ [dquote] ++ lit ":"
     ++ [dquote] ++ hex ++ [dquote] ++ lit "}").

(** Following the specification's words: lower-case the username, then
    NFC; NFC of the password; the first followed by the second. *)
Definition spec_normalized `{Platform} (u p : jsstring) : jsstring :=
  normalize NFC (toLowerCase u) ++ normalize NFC p.

(** A lower-case hexadecimal digit: 0-9 or a-f. *)
Definition is_lower_hex (c : code_unit) : bool :=
  ((48 <=? c) && (c <=? 57) || (97 <=? c) && (c <=? 102))%N.

Definition hex_value (c : code_unit) : option N :=
  if ((48 <=? c) && (c <=? 57))%N then Some (c - 48)%N
  else if ((97 <=? c) && (c <=? 102))%N then Some (c - 87)%N
  else None.

(** Reading a string of hexadecimal digit pairs back as bytes. *)
Fixpoint hex_decode (s : jsstring) : option (list byte) :=
  match s with
  | [] => Some []
  | hi :: lo :: rest =>
      match hex_value hi, hex_value lo, hex_decode rest with
      | Some h, Some l, Some bytes => Some (byte_of_N (16 * h + l) :: bytes)
      | _, _, _ => None
      end
  | [_] => None
  end.

(** The two digits of a byte, high nibble first. *)
Definition two_digits (b : byte) : jsstring :=
  [digit_char (Byte.to_N b / 16); digit_char (Byte.to_N b mod 16)].

(** The ways a run of the handler can go, each with the condition under
    which it goes that way and the run itself. *)
Inductive RunCase `{Platform} (request : EW.ResponseProviderRequest) : Prop :=
| NoHeader :
    EW.getHeader request (lit "content-length") = None ->
    responseProvider request = ([], Thrown TypeError) ->
    RunCase request
| GateClosed values :
    EW.getHeader request (lit "content-length") = Some values ->
    number_lt (parseInt (hd_error values) 10) 16384 = false ->
    responseProvider request
    = ([LogError (lit "Body too large")], Returned body_too_large) ->
    RunCase request
| ValidationThrows :
    below_limit request ->
    body_is_valid (catch_null (EW.json request)) = throw TypeError ->
    responseProvider request = ([ReadBody], Thrown TypeError) ->
    RunCase request
| Invalid :
    below_limit request ->
    body_is_valid (catch_null (EW.json request)) = ret false ->
    responseProvider request
    = ([ReadBody; LogError (lit "Something wrong with the request body")],
       Returned something_wrong) ->
    RunCase request
| NotAString :
    below_limit request ->
    body_is_valid (catch_null (EW.json request)) = ret true ->
    (forall u p, ~ carries request u p) ->
    responseProvider request = ([ReadBody], Thrown TypeError) ->
    RunCase request
| Hashed u p :
    below_limit request -> carries request u p ->
    u <> [] -> (1 < length p)%nat ->
    responseProvider request
    = ([ReadBody;
        Digest SHA256 (TextEncoder_encode (spec_normalized u p));
        LogInfo (lit "SHA-256 hash created from username+password combination")],
       Returned
         (key_response
            (hex_string
               (digest SHA256 (TextEncoder_encode (spec_normalized u p)))))) ->
    RunCase request.

(** The log entries of a trace. *)
Definition is_log (ev : Event) : bool :=
  match ev with
  | LogInfo _ | LogError _ => true
  | ReadBody | Digest _ _ => false
  end.

Definition log_entries (t : list Event) : list Event := filter is_log t.

Definition is_digest (ev : Event) : bool :=
  match ev with
  | Digest _ _ => true
  | ReadBody | LogInfo _ | LogError _ => false
  end.

Definition is_read (ev : Event) : bool :=
  match ev with
  | ReadBody => true
  | Digest _ _ | LogInfo _ | LogError _ => false
  end.

(** A decimal digit, 0-9. *)
Definition is_decimal_digit (c : code_unit) : bool :=
  ((48 <=? c) && (c <=? 57))%N.

(** The string starts with a decimal digit. *)
Definition starts_with_digit (s : jsstring) : bool :=
  match s with
  | c :: _ => is_decimal_digit c
  | [] => false
  end.


(** The number that decimal digits, most significant first, denote. *)
Definition decimal_value (digits : list N) : N :=
  fold_left (fun a d => (a * 10 + d)%N) digits 0%N.

(* ================================================================== *)
(** * Properties *)
(* ================================================================== *)

Lemma bind_ret A B (a : A) (k : A -> Eff B) : bind (ret a) k = k a.
Proof. unfold bind, ret. destruct (k a); reflexivity. Qed.

Lemma bind_throw A B (e : Exn) (k : A -> Eff B) : bind (throw e) k = throw e.
Proof. reflexivity. Qed.

Lemma join_empty (parts : list jsstring) : join [] parts = concat parts.
Proof.
  induction parts as [|p rest IH]; [reflexivity|].
  destruct rest as [|q rest].
  - simpl. now rewrite app_nil_r.
  - change (join [] (p :: q :: rest)) with (p ++ [] ++ join [] (q :: rest)).
    now rewrite IH.
Qed.

Section Runs.

Context {platform : Platform}.

(** Case analysis on the comparisons of code units in the goal. *)
Ltac unit_tests :=
  repeat match goal with
    | |- context [N.eqb ?a ?b] => destruct (N.eqb_spec a b)
    | |- context [N.leb ?a ?b] => destruct (N.leb_spec a b)
    | |- context [N.ltb ?a ?b] => destruct (N.ltb_spec a b)
    end;
  simpl; try reflexivity; try discriminate; try lia.

Lemma lower_hex_bounds c :
  is_lower_hex c = true -> (48 <= c <= 57 \/ 97 <= c <= 102)%N.
Proof.
  unfold is_lower_hex. unit_tests.
Qed.

Lemma json_escape_lower_hex c :
  is_lower_hex c = true ->
  is_high_surrogate c = false /\ json_escape (is_low_surrogate c) c = [c].
Proof.
  intros H. apply lower_hex_bounds in H.
  unfold is_high_surrogate, is_low_surrogate, json_escape.
  split; unit_tests.
Qed.

Lemma json_escape_all_lower_hex s :
  forallb is_lower_hex s = true -> json_escape_all s = s.
Proof.
  induction s as [|c r IH]; [reflexivity|]. simpl forallb.
  intros H. apply andb_true_iff in H. destruct H as [Hc Hr].
  destruct (json_escape_lower_hex c Hc) as [Hhigh Hesc].
  simpl. rewrite Hhigh, Hesc, (IH Hr). reflexivity.
Qed.

Lemma hex_of_byte_two_digits b : hex_of_byte b = two_digits b.
Proof. destruct b; reflexivity. Qed.

Lemma two_digits_lower_hex b : forallb is_lower_hex (two_digits b) = true.
Proof. destruct b; reflexivity. Qed.

Lemma hex_string_flat_map bytes : hex_string bytes = flat_map two_digits bytes.
Proof.
  unfold hex_string. change (lit "") with (@nil code_unit).
  rewrite join_empty, flat_map_concat_map. f_equal.
  apply map_ext. exact hex_of_byte_two_digits.
Qed.

Lemma hex_string_lower_hex bytes : forallb is_lower_hex (hex_string bytes) = true.
Proof.
  rewrite hex_string_flat_map.
  induction bytes as [|b r IH]; [reflexivity|].
  change (flat_map two_digits (b :: r))
    with (two_digits b ++ flat_map two_digits r).
  rewrite forallb_app, IH, two_digits_lower_hex. reflexivity.
Qed.

Lemma hex_string_length bytes : length (hex_string bytes) = 2 * length bytes.
Proof.
  rewrite hex_string_flat_map.
  induction bytes as [|b r IH]; [reflexivity|].
  change (flat_map two_digits (b :: r))
    with (two_digits b ++ flat_map two_digits r).
  rewrite length_app, IH. simpl. lia.
Qed.

Lemma hex_decode_two_digits b rest :
  hex_decode (two_digits b ++ rest) = option_map (cons b) (hex_decode rest).
Proof.
  destruct b; simpl; destruct (hex_decode rest); reflexivity.
Qed.

Lemma hex_decode_hex_string bytes : hex_decode (hex_string bytes) = Some bytes.
Proof.
  rewrite hex_string_flat_map.
  induction bytes as [|b r IH]; [reflexivity|].
  change (flat_map two_digits (b :: r))
    with (two_digits b ++ flat_map two_digits r).
  rewrite hex_decode_two_digits, IH. reflexivity.
Qed.

Lemma stringify_key hex :
  forallb is_lower_hex hex = true ->
  createResponse 200 [(lit "Content-Type", [lit "application/json"])]
    (JSON_stringify [(lit "key", hex)])
  = key_response hex.
Proof.
  intros H. unfold key_response, JSON_stringify, json_quote. simpl map.
  rewrite (json_escape_all_lower_hex hex H). simpl.
  repeat (rewrite <- app_assoc; simpl). reflexivity.
Qed.

(** The three paths of the handler. *)

Lemma run_rejected_by_gate request values :
  EW.getHeader request (lit "content-length") = Some values ->
  number_lt (parseInt (hd_error values) 10) 16384 = false ->
  responseProvider request
  = ([LogError (lit "Body too large")], Returned body_too_large).
Proof.
  intros Hh Hn. unfold responseProvider. rewrite Hh.
  unfold first_element. rewrite bind_ret, Hn. reflexivity.
Qed.

Lemma run_past_gate request :
  below_limit request ->
  responseProvider request
  = (myBody <- read_body request ;;
     valid <- body_is_valid myBody ;;
     if (valid : bool) then
       lowered <- string_method (get_prop myBody UNAME) toLowerCase ;;
       passwd <- string_method (get_prop myBody PASSWD) (normalize NFC) ;;
       hex <- generateDigest SHA256 (normalize NFC lowered ++ passwd) ;;
       emit (LogInfo
               (lit "SHA-256 hash created from username+password combination")) ;;
       ret (createResponse 200
              [(lit "Content-Type", [lit "application/json"])]
              (JSON_stringify [(lit "key", hex)]))
     else
       emit (LogError (lit "Something wrong with the request body")) ;;
       ret something_wrong).
Proof.
  intros (n & (values & Hh & Hp) & Hn). unfold responseProvider.
  rewrite Hh. unfold first_element. rewrite bind_ret, Hp.
  unfold number_lt. rewrite (proj2 (Z.ltb_lt n 16384) Hn). reflexivity.
Qed.


(** Validation of a body whose two fields are strings. *)
Lemma validation_of_strings myBody u p :
  get_prop myBody UNAME = Some (JStr u) ->
  get_prop myBody PASSWD = Some (JStr p) ->
  body_is_valid myBody
  = ret (negb (Nat.eqb (length u) 0) && (1 <? length p)%nat).
Proof.
  intros Hu Hp. unfold body_is_valid.
  destruct myBody; try discriminate Hu.
  rewrite Hu, Hp. simpl truthy.
  destruct u as [|c u]; [reflexivity|].
  destruct p as [|d p]; reflexivity.
Qed.

Lemma run_valid request u p :
  below_limit request -> carries request u p ->
  u <> [] -> (1 < length p)%nat ->
  responseProvider request
  = ([ReadBody;
      Digest SHA256 (TextEncoder_encode (spec_normalized u p));
      LogInfo (lit "SHA-256 hash created from username+password combination")],
     Returned
       (key_response
          (hex_string (digest SHA256 (TextEncoder_encode (spec_normalized u p)))))).
Proof.
  intros Hgate (myBody & Hjson & Hu & Hp) Hne Hlen.
  rewrite (run_past_gate Hgate). unfold read_body. rewrite Hjson.
  simpl catch_null.
  change (emit ReadBody ;; ret myBody) with ([ReadBody], Returned myBody).
  unfold bind at 1.
  rewrite (validation_of_strings _ Hu Hp).
  destruct u as [|c u]; [contradiction|].
  rewrite (proj2 (Nat.ltb_lt 1 (length p)) Hlen). simpl negb. simpl andb.
  rewrite bind_ret, Hu, Hp. unfold string_method. rewrite !bind_ret.
  unfold generateDigest, subtle_digest. cbn [bind emit ret app].
  rewrite stringify_key by apply hex_string_lower_hex.
  reflexivity.
Qed.

Lemma run_invalid request :
  below_limit request ->
  body_is_valid (catch_null (EW.json request)) = ret false ->
  responseProvider request
  = ([ReadBody; LogError (lit "Something wrong with the request body")],
     Returned something_wrong).
Proof.
  intros Hgate Hv. rewrite (run_past_gate Hgate). unfold read_body.
  change (emit ReadBody ;; ret (catch_null (EW.json request)))
    with ([ReadBody], Returned (catch_null (EW.json request))).
  unfold bind at 1. rewrite Hv, bind_ret. reflexivity.
Qed.

End Runs.

Lemma bind_returned A B (t : list Event) (a : A) (k : A -> Eff B) :
  bind (t, Returned a) k = (t ++ trace (k a), outcome (k a)).
Proof. unfold bind, trace, outcome. destruct (k a); reflexivity. Qed.

Lemma char_count_le_length s : (char_count s <= length s)%nat.
Proof.
  unfold char_count.
  assert (H : forall n s, (length s <= n)%nat ->
                          (length (code_points s) <= length s)%nat).
  { induction n as [|n IH]; intros [|c r] Hn; simpl in *; try lia.
    destruct (is_high_surrogate c).
    - destruct r as [|d r']; [simpl; lia|].
      destruct (is_low_surrogate d); simpl in *.
      + specialize (IH r'). lia.
      + specialize (IH (d :: r')). simpl in IH. lia.
    - specialize (IH r). simpl. lia. }
  exact (H (length s) s (le_n _)).
Qed.

Section Claims.

Context {platform : Platform}.

(** C1, as amended.  A request whose [content-length] header is there but
    whose first value [parseInt] turns into [NaN] (no leading integer, or
    no value at all) does not pass the size gate: the body is not read,
    the error is logged and the response is 500 with [Body too large]. *)
Theorem C1_unparsable_content_length_is_rejected request :
  content_length_parses request None ->
  responseProvider request
  = ([LogError (lit "Body too large")], Returned body_too_large).
Proof.
  intros (values & Hh & Hp).
  apply (run_rejected_by_gate request Hh). rewrite Hp. reflexivity.
Qed.

(** C2.  For a request that passes the size gate and validation, with the
    strings [u] and [p] as its two fields, the digest provider is called
    once, for SHA-256, on the UTF-8 bytes of: NFC of the lower-cased
    username, followed directly by NFC of the password; the key returned
    is the hexadecimal form of that digest. *)
Theorem C2_hashed_string request u p :
  below_limit request -> carries request u p ->
  body_is_valid (catch_null (EW.json request)) = ret true ->
  trace (responseProvider request)
  = [ReadBody;
     Digest SHA256 (TextEncoder_encode (spec_normalized u p));
     LogInfo (lit "SHA-256 hash created from username+password combination")]
  /\ outcome (responseProvider request)
     = Returned (key_response
                   (hex_string
                      (digest SHA256
                         (TextEncoder_encode
                            (normalize NFC (toLowerCase u) ++ normalize NFC p))))).
Proof.
  intros Hgate Hc Hv.
  assert (Hup : u <> [] /\ (1 < length p)%nat).
  { destruct Hc as (myBody & Hjson & Hu & Hp). rewrite Hjson in Hv.
    simpl catch_null in Hv. rewrite (validation_of_strings _ Hu Hp) in Hv.
    injection Hv as Hv. apply andb_true_iff in Hv. destruct Hv as [H1 H2].
    split; [intros -> ; discriminate H1 | now apply Nat.ltb_lt]. }
  destruct Hup as [Hne Hlen].
  rewrite (run_valid Hgate Hc Hne Hlen). split; reflexivity.
Qed.

(** C3.  Given that SHA-256 digests are 32 bytes long: for a request that
    passes the size gate, with well-formed JSON whose [uname] is a
    non-empty string and whose [passwd] is a string of length at least 2,
    the handler returns status 200 with the header
    [Content-Type: application/json], and its body is the JSON object
    with the one field [key], whose value is 64 lower-case hexadecimal
    digits. *)
Theorem C3_valid_input_gives_key request u p :
  (forall data, length (digest SHA256 data) = 32) ->
  below_limit request -> carries request u p ->
  u <> [] -> (2 <= length p)%nat ->
  exists hex,
    outcome (responseProvider request)
    = Returned
        (createResponse 200
           [(lit "Content-Type", [lit "application/json"])]
           (lit "{" ++ [dquote] ++ lit "key" ++ [dquote] ++ lit ":"
            ++ [dquote] ++ hex ++ [dquote] ++ lit "}"))
    /\ length hex = 64
    /\ forallb is_lower_hex hex = true.
Proof.
  intros Hd Hgate Hc Hne Hlen.
  exists (hex_string (digest SHA256 (TextEncoder_encode (spec_normalized u p)))).
  rewrite (run_valid Hgate Hc Hne Hlen).
  split; [reflexivity|]. split.
  - rewrite hex_string_length, Hd. reflexivity.
  - apply hex_string_lower_hex.
Qed.

(** C4.  A request whose [content-length] parses to 16383 passes the size
    gate: the first thing the handler does is read the body, and whatever
    follows, the response is not [Body too large].  A request whose
    [content-length] parses to 16384 is answered 500 with
    [Body too large], and the body is never read. *)
Theorem C4_size_boundary r1 r2 :
  content_length_parses r1 (Some 16383%Z) ->
  content_length_parses r2 (Some 16384%Z) ->
  (exists rest, trace (responseProvider r1) = ReadBody :: rest)
  /\ outcome (responseProvider r1) <> Returned body_too_large
  /\ responseProvider r2
     = ([LogError (lit "Body too large")], Returned body_too_large)
  /\ ~ In ReadBody (trace (responseProvider r2)).
Proof.
  intros H1 (values & Hh & Hp).
  assert (Hgate : below_limit r1) by (exists 16383%Z; split; [exact H1 | lia]).
  assert (H2 : responseProvider r2
               = ([LogError (lit "Body too large")], Returned body_too_large)).
  { apply (run_rejected_by_gate r2 Hh). rewrite Hp. reflexivity. }
  rewrite (run_past_gate Hgate), H2. unfold read_body.
  change (emit ReadBody ;; ret (catch_null (EW.json r1)))
    with ([ReadBody], Returned (catch_null (EW.json r1))).
  rewrite bind_returned.
  split; [|split; [|split]].
  - eexists. reflexivity.
  - unfold outcome. simpl snd.
    destruct (body_is_valid (catch_null (EW.json r1))) as [t [[|]|e]];
      [| rewrite bind_returned; simpl; discriminate | simpl; discriminate].
    rewrite bind_returned. simpl snd.
    destruct (get_prop (catch_null (EW.json r1)) UNAME) as [[]|];
      try (simpl; discriminate).
    unfold string_method at 1. rewrite bind_ret.
    destruct (get_prop (catch_null (EW.json r1)) PASSWD) as [[]|];
      simpl; discriminate.
  - reflexivity.
  - simpl. intros [H|[]]. discriminate H.
Qed.

(** C5.  For requests that pass the size gate and carry well-formed JSON
    with a non-empty string [uname]: a password of length 1 is answered
    500, a password of length 2 is answered 200 with a key. *)
Theorem C5_password_length_boundary r1 r2 u1 p1 u2 p2 :
  below_limit r1 -> carries r1 u1 p1 -> u1 <> [] -> length p1 = 1 ->
  below_limit r2 -> carries r2 u2 p2 -> u2 <> [] -> length p2 = 2 ->
  outcome (responseProvider r1) = Returned something_wrong
  /\ status something_wrong = 500%Z
  /\ exists hex,
       outcome (responseProvider r2) = Returned (key_response hex)
       /\ status (key_response hex) = 200%Z.
Proof.
  intros Hg1 (b1 & Hj1 & Hu1 & Hp1) Hne1 Hl1 Hg2 Hc2 Hne2 Hl2.
  split; [|split; [reflexivity|]].
  - rewrite (run_invalid Hg1); [reflexivity|].
    rewrite Hj1. simpl catch_null.
    rewrite (validation_of_strings _ Hu1 Hp1), Hl1.
    now rewrite andb_false_r.
  - eexists. rewrite (run_valid Hg2 Hc2 Hne2) by lia. split; reflexivity.
Qed.

(** C6, as amended.  The length of the password is its number of UTF-16
    code units: with a non-empty string [uname], validation accepts a
    string password exactly when it has more than one code unit.  A
    string never has more characters than code units, so a password of
    more than one character is accepted. *)
Theorem C6_length_in_code_units myBody u p :
  get_prop myBody UNAME = Some (JStr u) -> u <> [] ->
  get_prop myBody PASSWD = Some (JStr p) ->
  body_is_valid myBody = ret (1 <? length p)%nat
  /\ (char_count p <= length p)%nat.
Proof.
  intros Hu Hne Hp. split; [|apply char_count_le_length].
  rewrite (validation_of_strings _ Hu Hp).
  destruct u; [contradiction | reflexivity].
Qed.

(** C7.  When the request passes the size gate and [request.json()]
    rejects, the body becomes [null] and nothing is thrown: the handler
    logs the error and answers
    500 with [Something wrong with the provided body].  A request whose
    body parses but lacks [uname] or [passwd], or has a string password
    of length at most 1, gets the very same run. *)
Theorem C7_malformed_body request :
  below_limit request -> EW.json request = Rejected ->
  catch_null (EW.json request) = JNull
  /\ responseProvider request
  = ([ReadBody; LogError (lit "Something wrong with the request body")],
     Returned something_wrong)
  /\ forall request' myBody,
       below_limit request' -> EW.json request' = Resolved myBody ->
       get_prop myBody UNAME = None
       \/ get_prop myBody PASSWD = None
       \/ (exists p, get_prop myBody PASSWD = Some (JStr p)
                     /\ (length p <= 1)%nat) ->
       responseProvider request' = responseProvider request.
Proof.
  intros Hgate Hrej.
  assert (Hrun : responseProvider request
                 = ([ReadBody;
                     LogError (lit "Something wrong with the request body")],
                    Returned something_wrong)).
  { apply (run_invalid Hgate). rewrite Hrej. reflexivity. }
  split; [rewrite Hrej; reflexivity|]. split; [exact Hrun|].
  intros request' myBody Hgate' Hjson Hcase. rewrite Hrun.
  apply (run_invalid Hgate'). rewrite Hjson. simpl catch_null.
  unfold body_is_valid.
  destruct (truthy (Some myBody)); [|reflexivity].
  destruct Hcase as [Hu | [Hp | (p & Hp & Hlen)]].
  - rewrite Hu. reflexivity.
  - rewrite Hp. destruct (truthy (get_prop myBody UNAME)); reflexivity.
  - rewrite Hp. destruct (truthy (get_prop myBody UNAME)); [|reflexivity].
    destruct p as [|c [|d p]]; [reflexivity | reflexivity | simpl in Hlen; lia].
Qed.

(** C8.  Two usernames with the same lower-case form, or whose lower-case
    forms have the same NFC form, give the same run with the same
    password, and so the same key. *)
Theorem C8_normalization_equivalence r1 r2 u1 u2 p :
  toLowerCase u1 = toLowerCase u2
  \/ normalize NFC (toLowerCase u1) = normalize NFC (toLowerCase u2) ->
  below_limit r1 -> carries r1 u1 p -> u1 <> [] ->
  below_limit r2 -> carries r2 u2 p -> u2 <> [] ->
  (1 < length p)%nat ->
  responseProvider r1 = responseProvider r2
  /\ exists hex, outcome (responseProvider r1) = Returned (key_response hex).
Proof.
  intros Heq Hg1 Hc1 Hne1 Hg2 Hc2 Hne2 Hlen.
  assert (Hn : spec_normalized u1 p = spec_normalized u2 p).
  { unfold spec_normalized. destruct Heq as [H|H]; now rewrite H. }
  rewrite (run_valid Hg1 Hc1 Hne1 Hlen), (run_valid Hg2 Hc2 Hne2 Hlen), Hn.
  split; [reflexivity | eexists; reflexivity].
Qed.

(** C9.  Two pairs of credentials that both pass validation and whose
    normalized username followed by normalized password are the same
    string give the same run: the same digest and the same 200
    response. *)
Theorem C9_boundary_shift r1 r2 u1 p1 u2 p2 :
  normalize NFC (toLowerCase u1) ++ normalize NFC p1
  = normalize NFC (toLowerCase u2) ++ normalize NFC p2 ->
  below_limit r1 -> carries r1 u1 p1 -> u1 <> [] -> (1 < length p1)%nat ->
  below_limit r2 -> carries r2 u2 p2 -> u2 <> [] -> (1 < length p2)%nat ->
  responseProvider r1 = responseProvider r2
  /\ exists hex,
       outcome (responseProvider r1) = Returned (key_response hex)
       /\ status (key_response hex) = 200%Z.
Proof.
  intros Heq Hg1 Hc1 Hne1 Hl1 Hg2 Hc2 Hne2 Hl2.
  rewrite (run_valid Hg1 Hc1 Hne1 Hl1), (run_valid Hg2 Hc2 Hne2 Hl2).
  unfold spec_normalized. rewrite Heq.
  split; [reflexivity | eexists; split; reflexivity].
Qed.

(** C10.  The hexadecimal string that [generateDigest] returns renders
    each byte of the digest, in order, as its two lower-case digits, the
    high one first and 0 when the byte is below 16: its length is twice
    the number of bytes, reading it back gives the bytes, and so two
    byte sequences with the same string are equal. *)
Theorem C10_hex_encoding_faithful (bytes : list byte) :
  hex_string bytes = flat_map two_digits bytes
  /\ length (hex_string bytes) = 2 * length bytes
  /\ forallb is_lower_hex (hex_string bytes) = true
  /\ hex_decode (hex_string bytes) = Some bytes
  /\ (forall bytes', hex_string bytes = hex_string bytes' -> bytes = bytes')
  /\ (forall algorithm s,
        outcome (generateDigest algorithm s)
        = Returned (hex_string (digest algorithm (TextEncoder_encode s)))).
Proof.
  repeat split.
  - apply hex_string_flat_map.
  - apply hex_string_length.
  - apply hex_string_lower_hex.
  - apply hex_decode_hex_string.
  - intros bytes' H. apply (f_equal hex_decode) in H.
    rewrite !hex_decode_hex_string in H. now injection H.
Qed.

End Claims.

(** Two paths on which the handler throws instead of answering. *)

Section Throws.

Context {platform : Platform}.

(** When the request has no [content-length] header, [getHeader] gives
    no array, indexing it throws, and the handler ends with a
    [TypeError] before anything else happens. *)
Lemma absent_content_length_throws request :
  EW.getHeader request (lit "content-length") = None ->
  responseProvider request = ([], Thrown TypeError).
Proof.
  intros H. unfold responseProvider. rewrite H. reflexivity.
Qed.

(** Validation does not ask for strings.  When it passes and [uname] is
    not a string, the call of [toLowerCase] throws a [TypeError] after the
    body has been read, and no response is returned. *)
Lemma non_string_uname_throws request myBody :
  below_limit request -> EW.json request = Resolved myBody ->
  body_is_valid myBody = ret true ->
  (forall u, get_prop myBody UNAME <> Some (JStr u)) ->
  responseProvider request = ([ReadBody], Thrown TypeError).
Proof.
  intros Hgate Hjson Hv Hu. rewrite (run_past_gate Hgate). unfold read_body.
  rewrite Hjson. simpl catch_null.
  change (emit ReadBody ;; ret myBody) with ([ReadBody], Returned myBody).
  unfold bind at 1. rewrite Hv, bind_ret.
  destruct (get_prop myBody UNAME) as [[]|]; try reflexivity.
  now elim (Hu s).
Qed.

End Throws.

(* ================================================================== *)
(** * The properties on the reference platform *)
(* ================================================================== *)

Lemma sha256_length data : length (Sha256.sha256 data) = 32.
Proof. reflexivity. Qed.

Lemma reference_digest_length data :
  length (@digest reference SHA256 data) = 32.
Proof. exact (sha256_length data). Qed.

Lemma request_of_below_limit s n body :
  parseInt (Some s) 10 = Some n -> (n < 16384)%Z ->
  below_limit (request_of [s] body).
Proof.
  intros Hp Hn. exists n. split; [|exact Hn]. exists [s]. split; [reflexivity|].
  exact Hp.
Defined.

Lemma request_of_carries values u p :
  carries (request_of values (Resolved (credentials u p))) u p.
Proof.
  exists (credentials u p). repeat split.
Defined.

(** The example of the source's comment: with SHA-256 as the digest, the
    key is the one the comment gives, and it has 64 characters. *)
Example documented_example :
  outcome (@responseProvider reference
             (request_of [lit "51"]
                (Resolved (credentials documented_uname documented_passwd))))
  = Returned (key_response documented_hash)
  /\ length documented_hash = 64.
Proof. split; vm_compute; reflexivity. Qed.

(** C1 as the specification states it fails: a [content-length] of [abc]
    does not parse, and the handler answers [Body too large] without
    reading the body, which is well-formed and valid. *)
Lemma C1_counterexample :
  parseInt (Some (lit "abc")) 10 = None
  /\ @responseProvider reference
       (request_of [lit "abc"]
          (Resolved (credentials documented_uname documented_passwd)))
     = ([LogError (lit "Body too large")], Returned body_too_large)
  /\ ~ In ReadBody
        (trace (@responseProvider reference
                  (request_of [lit "abc"]
                     (Resolved (credentials documented_uname documented_passwd))))).
Proof.
  split; [reflexivity|]. split; [reflexivity|].
  simpl. intros [H|[]]. discriminate H.
Qed.

Lemma C1_witness :
  @responseProvider reference (request_of [lit "abc"] Rejected)
  = ([LogError (lit "Body too large")], Returned body_too_large).
Proof.
  apply (@C1_unparsable_content_length_is_rejected reference).
  exists [lit "abc"]. split; reflexivity.
Defined.

Lemma C2_witness :
  trace (@responseProvider reference
           (request_of [lit "51"]
              (Resolved (credentials documented_uname documented_passwd))))
  = [ReadBody;
     Digest SHA256
       (TextEncoder_encode
          (@spec_normalized reference documented_uname documented_passwd));
     LogInfo (lit "SHA-256 hash created from username+password combination")]
  /\ outcome (@responseProvider reference
                (request_of [lit "51"]
                   (Resolved (credentials documented_uname documented_passwd))))
     = Returned
         (key_response
            (hex_string
               (@digest reference SHA256
                  (TextEncoder_encode
                     (@normalize reference NFC
                        (@toLowerCase reference documented_uname)
                      ++ @normalize reference NFC documented_passwd))))).
Proof.
  apply (@C2_hashed_string reference).
  - apply (@request_of_below_limit _ 51%Z); [reflexivity | lia].
  - apply request_of_carries.
  - reflexivity.
Defined.

Lemma C3_witness :
  exists hex,
    outcome (@responseProvider reference
               (request_of [lit "51"]
                  (Resolved (credentials documented_uname documented_passwd))))
    = Returned
        (createResponse 200
           [(lit "Content-Type", [lit "application/json"])]
           (lit "{" ++ [dquote] ++ lit "key" ++ [dquote] ++ lit ":"
            ++ [dquote] ++ hex ++ [dquote] ++ lit "}"))
    /\ length hex = 64
    /\ forallb is_lower_hex hex = true.
Proof.
  apply (@C3_valid_input_gives_key reference _
           documented_uname documented_passwd).
  - exact reference_digest_length.
  - apply (@request_of_below_limit _ 51%Z); [reflexivity | lia].
  - apply request_of_carries.
  - discriminate.
  - simpl. lia.
Defined.

Lemma C4_witness :
  (exists rest,
      trace (@responseProvider reference (request_of [lit "16383"] Rejected))
      = ReadBody :: rest)
  /\ outcome (@responseProvider reference (request_of [lit "16383"] Rejected))
     <> Returned body_too_large
  /\ @responseProvider reference
       (request_of [lit "16384"]
          (Resolved (credentials documented_uname documented_passwd)))
     = ([LogError (lit "Body too large")], Returned body_too_large)
  /\ ~ In ReadBody
        (trace (@responseProvider reference
                  (request_of [lit "16384"]
                     (Resolved (credentials documented_uname documented_passwd))))).
Proof.
  apply (@C4_size_boundary reference).
  - exists [lit "16383"]. split; reflexivity.
  - exists [lit "16384"]. split; reflexivity.
Defined.

Lemma C5_witness :
  outcome (@responseProvider reference
             (request_of [lit "30"]
                (Resolved (credentials (lit "alice") (lit "x")))))
  = Returned something_wrong
  /\ status something_wrong = 500%Z
  /\ exists hex,
       outcome (@responseProvider reference
                  (request_of [lit "31"]
                     (Resolved (credentials (lit "alice") (lit "xy")))))
       = Returned (key_response hex)
       /\ status (key_response hex) = 200%Z.
Proof.
  apply (@C5_password_length_boundary reference _ _
           (lit "alice") (lit "x") (lit "alice") (lit "xy")).
  - apply (@request_of_below_limit _ 30%Z); [reflexivity | lia].
  - apply request_of_carries.
  - discriminate.
  - reflexivity.
  - apply (@request_of_below_limit _ 31%Z); [reflexivity | lia].
  - apply request_of_carries.
  - discriminate.
  - reflexivity.
Defined.

(** The length is not a number of bytes either: u with a diaeresis is
    one code unit and two bytes of UTF-8, and it is too short. *)
Example one_unit_of_two_bytes_is_rejected :
  length (TextEncoder_encode [252%N]) = 2
  /\ @body_is_valid reference (credentials (lit "alice") [252%N]) = ret false.
Proof. split; reflexivity. Qed.

(** C6 as the specification states it fails: a password of one character,
    U+1F600, is accepted, since it has two code units. *)
Lemma C6_counterexample :
  char_count grinning_face = 1
  /\ length grinning_face = 2
  /\ @body_is_valid reference (credentials (lit "alice") grinning_face)
     = ret true.
Proof. repeat split. Qed.

Lemma C6_witness :
  @body_is_valid reference (credentials (lit "alice") grinning_face)
  = ret (1 <? length grinning_face)%nat
  /\ (char_count grinning_face <= length grinning_face)%nat.
Proof.
  apply (@C6_length_in_code_units reference _ (lit "alice")).
  - reflexivity.
  - discriminate.
  - reflexivity.
Defined.

Lemma C7_witness :
  catch_null (EW.json (request_of [lit "12"] Rejected)) = JNull
  /\ @responseProvider reference (request_of [lit "12"] Rejected)
  = ([ReadBody; LogError (lit "Something wrong with the request body")],
     Returned something_wrong)
  /\ forall request' myBody,
       below_limit request' -> EW.json request' = Resolved myBody ->
       get_prop myBody UNAME = None
       \/ get_prop myBody PASSWD = None
       \/ (exists p, get_prop myBody PASSWD = Some (JStr p)
                     /\ (length p <= 1)%nat) ->
       @responseProvider reference request'
       = @responseProvider reference (request_of [lit "12"] Rejected).
Proof.
  apply (@C7_malformed_body reference).
  - apply (@request_of_below_limit _ 12%Z); [reflexivity | lia].
  - reflexivity.
Defined.

Lemma C8_witness :
  @responseProvider reference
    (request_of [lit "40"]
       (Resolved (credentials rene_decomposed documented_passwd)))
  = @responseProvider reference
      (request_of [lit "39"]
         (Resolved (credentials rene_precomposed documented_passwd)))
  /\ exists hex,
       outcome (@responseProvider reference
                  (request_of [lit "40"]
                     (Resolved (credentials rene_decomposed documented_passwd))))
       = Returned (key_response hex).
Proof.
  apply (@C8_normalization_equivalence reference _ _
           rene_decomposed rene_precomposed documented_passwd).
  - right. reflexivity.
  - apply (@request_of_below_limit _ 40%Z); [reflexivity | lia].
  - apply request_of_carries.
  - discriminate.
  - apply (@request_of_below_limit _ 39%Z); [reflexivity | lia].
  - apply request_of_carries.
  - discriminate.
  - simpl. lia.
Defined.

Lemma C9_witness :
  @responseProvider reference
    (request_of [lit "30"] (Resolved (credentials (lit "ab") (lit "cd"))))
  = @responseProvider reference
      (request_of [lit "30"] (Resolved (credentials (lit "a") (lit "bcd"))))
  /\ exists hex,
       outcome (@responseProvider reference
                  (request_of [lit "30"]
                     (Resolved (credentials (lit "ab") (lit "cd")))))
       = Returned (key_response hex)
       /\ status (key_response hex) = 200%Z.
Proof.
  apply (@C9_boundary_shift reference _ _
           (lit "ab") (lit "cd") (lit "a") (lit "bcd")).
  - reflexivity.
  - apply (@request_of_below_limit _ 30%Z); [reflexivity | lia].
  - apply request_of_carries.
  - discriminate.
  - simpl. lia.
  - apply (@request_of_below_limit _ 30%Z); [reflexivity | lia].
  - apply request_of_carries.
  - discriminate.
  - simpl. lia.
Defined.

Lemma absent_content_length_throws_witness :
  @responseProvider reference
    {| EW.getHeader := fun _ => None;
       EW.json := Resolved (credentials documented_uname documented_passwd) |}
  = ([], Thrown TypeError).
Proof.
  apply (@absent_content_length_throws reference). reflexivity.
Defined.

Lemma non_string_uname_throws_witness :
  @responseProvider reference
    (request_of [lit "30"]
       (Resolved (JObj [(UNAME, JBool true); (PASSWD, JStr (lit "secret"))])))
  = ([ReadBody], Thrown TypeError).
Proof.
  apply (@non_string_uname_throws reference _
           (JObj [(UNAME, JBool true); (PASSWD, JStr (lit "secret"))])).
  - apply (@request_of_below_limit _ 30%Z); [reflexivity | lia].
  - reflexivity.
  - reflexivity.
  - intros u H. discriminate H.
Defined.

(* ================================================================== *)
(** * Further properties of the handler *)
(* ================================================================== *)

Section Cases.

Context {platform : Platform}.

Lemma body_is_valid_cases myBody :
  body_is_valid myBody = ret true
  \/ body_is_valid myBody = ret false
  \/ body_is_valid myBody = throw TypeError.
Proof.
  unfold body_is_valid.
  destruct (truthy (Some myBody)); [|auto].
  destruct (truthy (get_prop myBody UNAME)); [|auto].
  destruct (truthy (get_prop myBody PASSWD)); [|auto].
  unfold length_gt_one.
  destruct (get_prop myBody PASSWD) as [[| | | s | items | props]|]; auto.
  - destruct (1 <? length s)%nat; auto.
  - destruct (1 <? length items)%nat; auto.
  - destruct (assoc (lit "length") props) as [w|]; auto.
    destruct (greater_than_one w) as [[|]|]; auto.
Qed.

Lemma gate_open_below_limit request values :
  EW.getHeader request (lit "content-length") = Some values ->
  number_lt (parseInt (hd_error values) 10) 16384 = true ->
  below_limit request.
Proof.
  intros Hh Hn. unfold number_lt in Hn.
  destruct (parseInt (hd_error values) 10) as [n|] eqn:Hp; [|discriminate].
  exists n. split; [exists values; auto | now apply Z.ltb_lt].
Qed.

Lemma run_after_read request :
  below_limit request ->
  responseProvider request
  = bind ([ReadBody], Returned (catch_null (EW.json request)))
      (fun myBody =>
         valid <- body_is_valid myBody ;;
         if (valid : bool) then
           lowered <- string_method (get_prop myBody UNAME) toLowerCase ;;
           passwd <- string_method (get_prop myBody PASSWD) (normalize NFC) ;;
           hex <- generateDigest SHA256 (normalize NFC lowered ++ passwd) ;;
           emit (LogInfo
                   (lit "SHA-256 hash created from username+password combination")) ;;
           ret (createResponse 200
                  [(lit "Content-Type", [lit "application/json"])]
                  (JSON_stringify [(lit "key", hex)]))
         else
           emit (LogError (lit "Something wrong with the request body")) ;;
           ret something_wrong).
Proof.
  intros Hgate. rewrite (run_past_gate Hgate). reflexivity.
Qed.

(** Every run is of one of the six kinds. *)
Lemma classify request : RunCase request.
Proof.
  destruct (EW.getHeader request (lit "content-length")) as [values|] eqn:Hh.
  2:{ apply NoHeader; [exact Hh|].
      unfold responseProvider. rewrite Hh. reflexivity. }
  destruct (number_lt (parseInt (hd_error values) 10) 16384) eqn:Hn.
  2:{ apply (GateClosed _ Hh Hn). exact (run_rejected_by_gate request Hh Hn). }
  pose proof (gate_open_below_limit request Hh Hn) as Hgate.
  destruct (body_is_valid_cases (catch_null (EW.json request)))
    as [Hv | [Hv | Hv]].
  - destruct (get_prop (catch_null (EW.json request)) UNAME)
      as [[| | | u | |]|] eqn:Hu.
    4: destruct (get_prop (catch_null (EW.json request)) PASSWD)
         as [[| | | p | |]|] eqn:Hp.
    7:{ (* both fields are strings *)
        assert (Hc : carries request u p).
        { destruct (EW.json request) as [myBody|] eqn:Hj.
          - exists myBody. auto.
          - discriminate Hu. }
        rewrite (validation_of_strings _ Hu Hp) in Hv.
        injection Hv as Hv. apply andb_true_iff in Hv. destruct Hv as [H1 H2].
        assert (Hne : u <> []) by (intros ->; discriminate H1).
        apply Nat.ltb_lt in H2.
        exact (Hashed Hgate Hc Hne H2 (run_valid Hgate Hc Hne H2)). }
    all: apply (NotAString Hgate Hv);
      [ intros u' p' (myBody & Hj & Hu' & Hp'); rewrite Hj in *;
        simpl catch_null in *; congruence
      | rewrite (run_after_read Hgate); unfold bind at 1;
        rewrite Hv, bind_ret, Hu; try rewrite Hp; reflexivity ].
  - exact (Invalid Hgate Hv (run_invalid Hgate Hv)).
  - apply (ValidationThrows Hgate Hv).
    rewrite (run_after_read Hgate). unfold bind at 1. rewrite Hv. reflexivity.
Qed.

End Cases.

Section Shapes.

Context {platform : Platform}.

Lemma not_below_limit_without_header request :
  EW.getHeader request (lit "content-length") = None -> ~ below_limit request.
Proof.
  intros Hh (n & (values & Hv & _) & _). congruence.
Qed.

Lemma not_below_limit_when_closed request values :
  EW.getHeader request (lit "content-length") = Some values ->
  number_lt (parseInt (hd_error values) 10) 16384 = false ->
  ~ below_limit request.
Proof.
  intros Hh Hn (n & (values' & Hv & Hp) & Hlt).
  rewrite Hh in Hv. injection Hv as <-. rewrite Hp in Hn.
  simpl in Hn. apply Z.ltb_ge in Hn. lia.
Qed.

(** Whatever the request, a run is one of five: a [TypeError] before
    anything happened; the error log and [Body too large]; the body read
    and then a [TypeError]; the body read, the error log and
    [Something wrong with the provided body]; or the body read, one
    SHA-256 digest, the info log and the 200 response whose key is the
    hexadecimal form of that digest.  No other response is ever built. *)
Theorem every_run_has_one_of_five_shapes request :
  responseProvider request = ([], Thrown TypeError)
  \/ responseProvider request
     = ([LogError (lit "Body too large")], Returned body_too_large)
  \/ responseProvider request = ([ReadBody], Thrown TypeError)
  \/ responseProvider request
     = ([ReadBody; LogError (lit "Something wrong with the request body")],
        Returned something_wrong)
  \/ exists data,
       responseProvider request
       = ([ReadBody; Digest SHA256 data;
           LogInfo
             (lit "SHA-256 hash created from username+password combination")],
          Returned (key_response (hex_string (digest SHA256 data)))).
Proof.
  destruct (classify request) as [? H | ? ? ? H | ? ? H | ? ? H | ? ? ? H
                                 | u p ? ? ? ? H]; rewrite H; auto 6.
  do 4 right. eexists. reflexivity.
Qed.

(** The body is read exactly when the request has a [content-length]
    header whose first value parses to a number below 16384, and then it
    is read once. *)
Theorem body_is_read_iff_below_limit request :
  (In ReadBody (trace (responseProvider request)) <-> below_limit request)
  /\ (length (filter is_read (trace (responseProvider request))) <= 1)%nat.
Proof.
  destruct (classify request) as [Hh H | values Hh Hn H | Hg ? H | Hg ? H
                                 | Hg ? ? H | u p Hg ? ? ? H]; rewrite H;
    (split; [split; [intros Hin | intros Hg'] | simpl; lia]);
    try (simpl; now left); try exact Hg.
  - destruct Hin.
  - elim (not_below_limit_without_header Hh Hg').
  - simpl in Hin. destruct Hin as [Hin|[]]. discriminate Hin.
  - elim (not_below_limit_when_closed Hh Hn Hg').
Qed.

(** The digest provider is called once, for SHA-256, in a run that ends
    in a 200 response, whose key is the hexadecimal form of what this call
    gave; in every other run, whether it ends in a 500 response or in an
    exception, it is not called at all. *)
Theorem digest_is_called_exactly_on_success request :
  match outcome (responseProvider request) with
  | Returned response =>
      if (status response =? 200)%Z then
        exists data,
          filter is_digest (trace (responseProvider request))
          = [Digest SHA256 data]
          /\ response = key_response (hex_string (digest SHA256 data))
      else filter is_digest (trace (responseProvider request)) = []
  | Thrown _ => filter is_digest (trace (responseProvider request)) = []
  end.
Proof.
  destruct (classify request) as [? H | ? ? ? H | ? ? H | ? ? H | ? ? ? H
                                 | u p ? ? ? ? H]; rewrite H;
    try reflexivity.
  simpl. eexists. split; reflexivity.
Qed.

(** A run that returns a response logs exactly one entry: the info entry
    with a 200 response, an error entry with a 500 response.  A run that
    ends in an exception logs nothing. *)
Theorem one_log_entry_per_response request :
  match outcome (responseProvider request) with
  | Returned response =>
      (status response = 200%Z
       /\ log_entries (trace (responseProvider request))
          = [LogInfo
               (lit "SHA-256 hash created from username+password combination")])
      \/ (status response = 500%Z
          /\ exists message,
               log_entries (trace (responseProvider request))
               = [LogError message])
  | Thrown _ => log_entries (trace (responseProvider request)) = []
  end.
Proof.
  destruct (classify request) as [? H | ? ? ? H | ? ? H | ? ? H | ? ? ? H
                                 | u p ? ? ? ? H]; rewrite H;
    try reflexivity.
  - right. split; [reflexivity | eexists; reflexivity].
  - right. split; [reflexivity | eexists; reflexivity].
  - left. split; reflexivity.
Qed.

(** The handler answers 200 exactly when the request passes the size
    gate and its body is JSON in which [uname] is a non-empty string and
    [passwd] a string of more than one code unit. *)
Theorem success_iff request :
  (exists response,
      outcome (responseProvider request) = Returned response
      /\ status response = 200%Z)
  <-> (below_limit request
       /\ exists u p,
            carries request u p /\ u <> [] /\ (1 < length p)%nat).
Proof.
  split.
  - intros (response & Ho & Hs).
    destruct (classify request) as [? H | ? ? ? H | ? ? H | ? ? H | ? ? ? H
                                   | u p Hg Hc Hne Hl H];
      rewrite H in Ho; simpl in Ho; try discriminate Ho.
    + injection Ho as <-. discriminate Hs.
    + injection Ho as <-. discriminate Hs.
    + split; [exact Hg | exists u, p; auto].
  - intros (Hg & u & p & Hc & Hne & Hl).
    rewrite (run_valid Hg Hc Hne Hl). eexists. split; reflexivity.
Qed.

(** With a [content-length] header present, the handler returns a
    response, and throws nothing, whenever the body fails to parse or
    each of [uname] and [passwd] is either missing or a string. *)
Theorem typed_fields_never_throw request values :
  EW.getHeader request (lit "content-length") = Some values ->
  (forall myBody, EW.json request = Resolved myBody ->
     (get_prop myBody UNAME = None \/ exists u, get_prop myBody UNAME = Some (JStr u))
     /\ (get_prop myBody PASSWD = None
         \/ exists p, get_prop myBody PASSWD = Some (JStr p))) ->
  exists response, outcome (responseProvider request) = Returned response.
Proof.
  intros Hh Htyped.
  destruct (classify request) as [Hn H | ? ? ? H | Hg Hv H | ? ? H
                                 | Hg Hv Hnc H | u p ? ? ? ? H];
    try (rewrite H; eexists; reflexivity); exfalso.
  - congruence.
  - (* the comparison of the length cannot throw on a string *)
    destruct (EW.json request) as [myBody|] eqn:Hj; [|discriminate Hv].
    simpl catch_null in Hv. destruct (Htyped myBody eq_refl) as [_ Hp].
    unfold body_is_valid in Hv.
    destruct (truthy (Some myBody)); [|discriminate Hv].
    destruct (truthy (get_prop myBody UNAME)); [|discriminate Hv].
    destruct Hp as [Hp | (p & Hp)]; rewrite Hp in Hv;
      [| destruct p]; simpl in Hv; discriminate Hv.
  - destruct (EW.json request) as [myBody|] eqn:Hj; [|discriminate Hv].
    simpl catch_null in Hv.
    destruct (Htyped myBody eq_refl) as [Hu Hp].
    unfold body_is_valid in Hv.
    destruct (truthy (Some myBody)); [|discriminate Hv].
    destruct Hu as [Hu | (u & Hu)]; rewrite Hu in Hv; [discriminate Hv|].
    destruct Hp as [Hp | (p & Hp)].
    + rewrite Hp in Hv. destruct (truthy (Some (JStr u))); simpl in Hv;
        discriminate Hv.
    + apply (Hnc u p). exists myBody. auto.
Qed.

(** A falsy [uname] or [passwd] (missing, [null], [false], 0 or the empty
    string) is answered 500 with
    [Something wrong with the provided body], whatever the other field
    holds. *)
Theorem falsy_field_is_rejected request myBody :
  below_limit request -> EW.json request = Resolved myBody ->
  truthy (get_prop myBody UNAME) = false
  \/ truthy (get_prop myBody PASSWD) = false ->
  responseProvider request
  = ([ReadBody; LogError (lit "Something wrong with the request body")],
     Returned something_wrong).
Proof.
  intros Hg Hj Hf. apply (run_invalid Hg). rewrite Hj. simpl catch_null.
  unfold body_is_valid.
  destruct (truthy (Some myBody)); [|reflexivity].
  destruct Hf as [Hf|Hf]; rewrite Hf; [reflexivity|].
  destruct (truthy (get_prop myBody UNAME)); reflexivity.
Qed.

(** Validation does not ask for strings.  When [uname] is a non-empty
    string and [passwd] is an array of two or more elements, validation
    passes, the call of [normalize] on the array throws a [TypeError]
    after the body has been read, and nothing is hashed, logged or
    returned. *)
Theorem array_passwd_throws request myBody u items :
  below_limit request -> EW.json request = Resolved myBody ->
  get_prop myBody UNAME = Some (JStr u) -> u <> [] ->
  get_prop myBody PASSWD = Some (JArr items) -> (2 <= length items)%nat ->
  responseProvider request = ([ReadBody], Thrown TypeError).
Proof.
  intros Hg Hj Hu Hne Hp Hl. rewrite (run_after_read Hg), Hj.
  simpl catch_null. unfold bind at 1.
  assert (Hv : body_is_valid myBody = ret true).
  { unfold body_is_valid. destruct myBody; try discriminate Hu.
    rewrite Hu, Hp. simpl. destruct u; [contradiction|]. simpl.
    unfold ret. repeat f_equal. apply Nat.ltb_lt. lia. }
  rewrite Hv, bind_ret, Hu, Hp. reflexivity.
Qed.

(** The handler reads only [uname] and [passwd]: two requests that pass
    the size gate and whose bodies are objects with the same values under
    these two names get the same run, whatever else the objects hold. *)
Theorem other_fields_are_ignored r1 r2 props1 props2 :
  below_limit r1 -> below_limit r2 ->
  EW.json r1 = Resolved (JObj props1) ->
  EW.json r2 = Resolved (JObj props2) ->
  assoc UNAME props1 = assoc UNAME props2 ->
  assoc PASSWD props1 = assoc PASSWD props2 ->
  responseProvider r1 = responseProvider r2.
Proof.
  intros Hg1 Hg2 Hj1 Hj2 Hu Hp.
  rewrite (run_after_read Hg1), (run_after_read Hg2), Hj1, Hj2.
  simpl catch_null. unfold bind at 1 3. unfold body_is_valid, get_prop.
  rewrite Hu, Hp. reflexivity.
Qed.

End Shapes.

(** ** The size gate on decimal numerals *)

Lemma pos_size_bound p : (N.pos p < 2 ^ N.of_nat (Pos.size_nat p))%N.
Proof.
  induction p as [p IH|p IH|]; cbn [Pos.size_nat];
    rewrite ?Nat2N.inj_succ, ?N.pow_succ_r'; lia.
Qed.

Lemma decimal_value_snoc ds d :
  decimal_value (ds ++ [d]) = (decimal_value ds * 10 + d)%N.
Proof. unfold decimal_value. now rewrite fold_left_app. Qed.

Lemma to_digits_step fuel radix n acc :
  to_digits (S fuel) radix n acc
  = if (n / radix =? 0)%N then digit_char (n mod radix) :: acc
    else to_digits fuel radix (n / radix) (digit_char (n mod radix) :: acc).
Proof. reflexivity. Qed.

Lemma to_digits_decimal fuel :
  forall n acc, (n < 2 ^ N.of_nat fuel)%N ->
  exists ds,
    ds <> [] /\ Forall (fun d => (d < 10)%N) ds
    /\ to_digits (S fuel) 10 n acc = map digit_char ds ++ acc
    /\ decimal_value ds = n.
Proof.
  induction fuel as [|fuel IH]; intros n acc Hn.
  - assert (n = 0%N) by (simpl in Hn; lia). subst n.
    exists [0%N]. repeat split; [discriminate | repeat constructor].
  - rewrite to_digits_step.
    destruct (N.eqb_spec (n / 10) 0) as [Hz|Hz].
    + exists [n]. apply N.div_small_iff in Hz; [|lia].
      rewrite (N.mod_small _ _ Hz).
      repeat split; [discriminate | repeat constructor; exact Hz].
    + assert (Hq : (n / 10 < 2 ^ N.of_nat fuel)%N).
      { rewrite Nat2N.inj_succ, N.pow_succ_r' in Hn.
        apply N.Div0.div_lt_upper_bound. lia. }
      destruct (IH (n / 10)%N (digit_char (n mod 10) :: acc) Hq)
        as (ds & Hne & Hall & Heq & Hval).
      exists (ds ++ [(n mod 10)%N]). split; [|split; [|split]].
      * destruct ds; discriminate.
      * apply Forall_app. split; [exact Hall|].
        constructor; [apply N.mod_lt; lia | constructor].
      * rewrite Heq, map_app, <- app_assoc. reflexivity.
      * rewrite decimal_value_snoc, Hval.
        rewrite (N.div_mod n 10) at 3 by lia. lia.
Qed.

Lemma Number_toString_decimal n :
  exists ds,
    ds <> [] /\ Forall (fun d => (d < 10)%N) ds
    /\ Number_toString n 10 = map digit_char ds
    /\ decimal_value ds = n.
Proof.
  unfold Number_toString.
  assert (Hn : (n < 2 ^ N.of_nat (N.size_nat n))%N).
  { destruct n as [|p]; [reflexivity | apply pos_size_bound]. }
  destruct (@to_digits_decimal (N.size_nat n) n [] Hn)
    as (ds & Hne & Hall & Heq & Hval).
  exists ds. rewrite Heq, app_nil_r. auto.
Qed.

Lemma digit_value_digit_char d :
  (d < 10)%N -> digit_value (digit_char d) = Some (Z.of_N d).
Proof.
  intros Hd. unfold digit_char, digit_value.
  destruct (N.ltb_spec d 10); [|lia].
  destruct (N.leb_spec 48 (48 + d)); [|lia].
  destruct (N.leb_spec (48 + d) 57); [|lia].
  cbn [andb]. f_equal. f_equal. lia.
Qed.

Lemma radix_digits_stops tail :
  starts_with_digit tail = false -> radix_digits 10 tail = [].
Proof.
  destruct tail as [|c r]; [reflexivity|]. simpl.
  unfold is_decimal_digit, digit_value. intros H.
  destruct (N.leb_spec 48 c); destruct (N.leb_spec c 57);
    try discriminate H; simpl;
    destruct (N.leb_spec 97 c); destruct (N.leb_spec c 122); simpl;
    try destruct (N.leb_spec 65 c); try destruct (N.leb_spec c 90); simpl;
    try reflexivity;
    match goal with
    | |- (if (?x <? 10)%Z then _ else _) = _ =>
        destruct (Z.ltb_spec x 10); [lia | reflexivity]
    end.
Qed.

Lemma radix_digits_decimal ds tail :
  Forall (fun d => (d < 10)%N) ds -> starts_with_digit tail = false ->
  radix_digits 10 (map digit_char ds ++ tail) = map Z.of_N ds.
Proof.
  intros Hall Htail.
  induction Hall as [|d ds Hd _ IH]; [exact (@radix_digits_stops tail Htail)|].
  cbn [map app radix_digits]. rewrite (@digit_value_digit_char d Hd).
  destruct (Z.ltb_spec (Z.of_N d) 10); [|lia]. now rewrite IH.
Qed.

Lemma digits_value_decimal ds :
  digits_value 10 (map Z.of_N ds) = Z.of_N (decimal_value ds).
Proof.
  unfold digits_value, decimal_value.
  change 0%Z with (Z.of_N 0). generalize 0%N as a.
  induction ds as [|d ds IH]; intros a; [reflexivity|].
  cbn [map fold_left]. rewrite <- IH. f_equal. lia.
Qed.

Lemma trim_start_whitespace ws s :
  forallb is_whitespace ws = true -> trim_start (ws ++ s) = trim_start s.
Proof.
  induction ws as [|c ws IH]; [reflexivity|]. cbn [forallb app trim_start].
  intros H. apply andb_true_iff in H. destruct H as [-> H]. exact (IH H).
Qed.

Lemma decimal_digit_cases d :
  (d < 10)%N -> In d [0; 1; 2; 3; 4; 5; 6; 7; 8; 9]%N.
Proof.
  intros H. simpl.
  destruct d as [|[[[|[]|]|[[]| |]|]|[[[]| |]|[[]| |]|]|]]; try lia; tauto.
Qed.

Lemma parseInt_radix_10 s :
  parseInt (Some s) 10
  = let '(negative, rest) := strip_sign (trim_start s) in
    match radix_digits 10 rest with
    | [] => None
    | ds => Some (if negative then (- digits_value 10 ds)%Z
                  else digits_value 10 ds)
    end.
Proof. reflexivity. Qed.

(** [parseInt] of a numeral: white space before it and anything that
    does not start with a digit after it are ignored, and a minus sign
    negates. *)
Lemma parseInt_numeral ws (negative : bool) n tail :
  forallb is_whitespace ws = true -> starts_with_digit tail = false ->
  parseInt
    (Some (ws ++ (if negative then [45%N] else [])
              ++ Number_toString n 10 ++ tail)) 10
  = Some (if negative then (- Z.of_N n)%Z else Z.of_N n).
Proof.
  intros Hws Htail.
  destruct (Number_toString_decimal n) as (ds & Hne & Hall & Heq & Hval).
  rewrite Heq. destruct ds as [|d ds]; [contradiction|].
  assert (Hd : (d < 10)%N) by now inversion Hall.
  assert (Hdigits :
            radix_digits 10 (map digit_char (d :: ds) ++ tail)
            = map Z.of_N (d :: ds)) by now apply radix_digits_decimal.
  assert (Hvalue : digits_value 10 (map Z.of_N (d :: ds)) = Z.of_N n)
    by now rewrite digits_value_decimal, Hval.
  rewrite parseInt_radix_10, (@trim_start_whitespace ws _ Hws).
  assert (Hhead :
            strip_sign
              (trim_start ((if negative then [45%N] else [])
                           ++ map digit_char (d :: ds) ++ tail))
            = (negative, map digit_char (d :: ds) ++ tail)).
  { destruct negative; [reflexivity|].
    pose proof (@decimal_digit_cases d Hd) as Hin. simpl in Hin.
    repeat (destruct Hin as [<-|Hin]; [reflexivity|]). destruct Hin. }
  rewrite Hhead, Hdigits. cbn [map] in Hvalue |- *. rewrite Hvalue.
  reflexivity.
Qed.

Section Gate.

Context {platform : Platform}.

(** The size gate reads the leading decimal numeral of the first
    [content-length] value and nothing else: white space before it and
    whatever follows it without starting with a digit (a unit, an
    exponent, a fraction) do not count.  The request passes when the
    numeral is below 16384 and is answered [Body too large] otherwise. *)
Theorem gate_reads_the_leading_numeral request ws n tail others :
  EW.getHeader request (lit "content-length")
  = Some ((ws ++ Number_toString n 10 ++ tail) :: others) ->
  forallb is_whitespace ws = true -> starts_with_digit tail = false ->
  ((n < 16384)%N -> below_limit request)
  /\ ((16384 <= n)%N ->
      responseProvider request
      = ([LogError (lit "Body too large")], Returned body_too_large)).
Proof.
  intros Hh Hws Htail.
  pose proof (@parseInt_numeral ws false n tail Hws Htail) as Hp.
  cbn [app] in Hp. split; intros Hn.
  - exists (Z.of_N n). split; [|lia].
    eexists. split; [exact Hh | exact Hp].
  - apply (run_rejected_by_gate request Hh). unfold hd_error.
    match goal with
    | |- number_lt ?x _ = _ =>
        replace x with (Some (Z.of_N n)) by (symmetry; exact Hp)
    end.
    simpl. apply Z.ltb_ge. lia.
Qed.

(** The gate has no lower bound: a [content-length] that is a negative
    numeral always passes. *)
Theorem negative_content_length_passes request ws n tail others :
  EW.getHeader request (lit "content-length")
  = Some ((ws ++ 45%N :: Number_toString n 10 ++ tail) :: others) ->
  forallb is_whitespace ws = true -> starts_with_digit tail = false ->
  below_limit request
  /\ In ReadBody (trace (responseProvider request)).
Proof.
  intros Hh Hws Htail.
  pose proof (@parseInt_numeral ws true n tail Hws Htail) as Hp.
  cbn [app] in Hp.
  assert (Hg : below_limit request).
  { exists (- Z.of_N n)%Z. split; [|lia].
    eexists. split; [exact Hh | exact Hp]. }
  split; [exact Hg|]. rewrite (run_after_read Hg).
  rewrite bind_returned. simpl. now left.
Qed.

End Gate.

(** ** The bytes that are hashed *)




Section Hashed.

Context {platform : Platform}.


End Hashed.

(** ** The further properties on the reference platform *)

Lemma typed_fields_never_throw_witness :
  exists response,
    outcome (@responseProvider reference
               (request_of [lit "20"]
                  (Resolved (credentials (lit "alice") (lit "x")))))
    = Returned response.
Proof.
  apply (@typed_fields_never_throw reference _ [lit "20"]).
  - reflexivity.
  - intros myBody H. injection H as <-.
    split; right; eexists; reflexivity.
Defined.

Lemma falsy_field_is_rejected_witness :
  @responseProvider reference
    (request_of [lit "20"] (Resolved empty_uname_body))
  = ([ReadBody; LogError (lit "Something wrong with the request body")],
     Returned something_wrong).
Proof.
  apply (@falsy_field_is_rejected reference _ empty_uname_body).
  - apply (@request_of_below_limit _ 20%Z); [reflexivity | lia].
  - reflexivity.
  - left. reflexivity.
Defined.

Lemma array_passwd_throws_witness :
  @responseProvider reference
    (request_of [lit "20"] (Resolved array_passwd_body))
  = ([ReadBody], Thrown TypeError).
Proof.
  apply (@array_passwd_throws reference _ array_passwd_body (lit "alice")
           [JStr (lit "s"); JStr (lit "t")]).
  - apply (@request_of_below_limit _ 20%Z); [reflexivity | lia].
  - reflexivity.
  - reflexivity.
  - discriminate.
  - reflexivity.
  - simpl. lia.
Defined.

Lemma other_fields_are_ignored_witness :
  @responseProvider reference
    (request_of [lit "60"] (Resolved body_with_more))
  = @responseProvider reference
      (request_of [lit "40"]
         (Resolved (credentials (lit "alice") (lit "secret")))).
Proof.
  apply (@other_fields_are_ignored reference _ _
           [(lit "remember", JBool true);
            (UNAME, JStr (lit "alice")); (PASSWD, JStr (lit "secret"))]
           [(UNAME, JStr (lit "alice")); (PASSWD, JStr (lit "secret"))]).
  - apply (@request_of_below_limit _ 60%Z); [reflexivity | lia].
  - apply (@request_of_below_limit _ 40%Z); [reflexivity | lia].
  - reflexivity.
  - reflexivity.
  - reflexivity.
  - reflexivity.
Defined.

(** A [content-length] of 1e9, after a space, counts as 1. *)
Lemma gate_reads_the_leading_numeral_witness :
  ((1 < 16384)%N -> below_limit (request_of [lit " 1e9"] Rejected))
  /\ ((16384 <= 1)%N ->
      @responseProvider reference (request_of [lit " 1e9"] Rejected)
      = ([LogError (lit "Body too large")], Returned body_too_large)).
Proof.
  apply (@gate_reads_the_leading_numeral reference
           (request_of [lit " 1e9"] Rejected) (lit " ") 1%N (lit "e9") []).
  - reflexivity.
  - reflexivity.
  - reflexivity.
Defined.

Lemma negative_content_length_passes_witness :
  below_limit (request_of [lit "-99999"] Rejected)
  /\ In ReadBody
       (trace (@responseProvider reference
                 (request_of [lit "-99999"] Rejected))).
Proof.
  apply (@negative_content_length_passes reference
           (request_of [lit "-99999"] Rejected) [] 99999%N [] []).
  - reflexivity.
  - reflexivity.
  - reflexivity.
Defined.
